(** * GazeboRosCameraUtils (include/util_ros_cam.h)

    The repository fragment is one C++ header.  It declares the class
    [gazebo::GazeboRosCameraUtils]; the member function bodies live in a
    translation unit that is not part of the fragment.

    The development has two layers.

    - [Header]: the declarations of the header, transcribed member by member
      in source order (access specifier, type, name, parameters, default
      arguments, default member initialisers), together with the pieces of
      C++ semantics needed to read them (default-argument completion,
      overload viability and member access).
    - [Camera]: an operational model of the member functions whose bodies
      are absent.  Every definition of that layer says in its comment which
      words of the specification or of the header it is written from. *)

From Stdlib Require Import String List ZArith Bool Lia.
From Stdlib Require Import Floats.SpecFloat.
Import ListNotations.
Open Scope string_scope.

(* ================================================================== *)
(** ** The header as data *)
(* ================================================================== *)

Module Header.

(** Access specifiers.  A specifier stays in force until the next one, so
    the two members written without one (lines 160-161) carry the
    [protected:] of line 157. *)
Inductive access := Public | Protected | Private.

(** Expressions that occur as default arguments and initialisers. *)
Inductive expr :=
| StringLit (s : string)
| Ident (s : string).

(** A function parameter: spelled type, name (absent for [OnLoad]) and
    default argument. *)
Record param := mkParam {
  p_type : string;
  p_name : option string;
  p_default : option expr
}.

Inductive special := Constructor | Destructor | Ordinary.

(** A member function declaration.  [m_ret] is [None] for the constructor
    and the destructor, which have no return type. *)
Record method := mkMethod {
  m_access : access;
  m_special : special;
  m_ret : option string;
  m_name : string;
  m_params : list param
}.

(** A data member declaration, with its default member initialiser. *)
Record field := mkField {
  f_access : access;
  f_type : string;
  f_name : string;
  f_init : option expr
}.

Inductive member :=
| MMethod (m : method)
| MField (f : field)
| MFriendClass (name : string).

Inductive decl :=
| ForwardClass (name : string)
| ClassDef (name : string) (members : list member).

Record translation_unit := mkUnit {
  guard : string;
  includes : list string;
  namespace_name : string;
  decls : list decl
}.

(** *** Shorthands used by the transcription *)

Definition P (ty name : string) : param := mkParam ty (Some name) None.

Definition fn (a : access) (ret name : string) (ps : list param) : member :=
  MMethod (mkMethod a Ordinary (Some ret) name ps).

Definition fld (a : access) (ty name : string) : member :=
  MField (mkField a ty name None).

Definition Float64Ptr : string := "const std_msgs::msg::Float64::SharedPtr".
Definition CameraInfoPub : string :=
  "rclcpp::Publisher<sensor_msgs::msg::CameraInfo>::SharedPtr".

(** *** The two [Load] overloads (lines 64-66 and 73-75) *)

Definition Load3 : method :=
  mkMethod Public Ordinary (Some "void") "Load"
    [ P "sensors::SensorPtr" "_parent";
      P "sdf::ElementPtr" "_sdf";
      mkParam "const std::string &" (Some "_camera_name_suffix")
              (Some (StringLit EmptyString)) ].

Definition Load4 : method :=
  mkMethod Public Ordinary (Some "void") "Load"
    [ P "sensors::SensorPtr" "_parent";
      P "sdf::ElementPtr" "_sdf";
      P "const std::string &" "_camera_name_suffix";
      P "double" "_hack_baseline" ].

(** *** The members of [GazeboRosCameraUtils], lines 55-192, in order *)

Definition GazeboRosCameraUtils_members : list member :=
  [ MMethod (mkMethod Public Constructor None "GazeboRosCameraUtils" []);
    MMethod (mkMethod Public Destructor None "~GazeboRosCameraUtils" []);
    MMethod Load3;
    MMethod Load4;
    fn Public "event::ConnectionPtr" "OnLoad"
       [ mkParam "const boost::function<void()>&" None None ];
    fn Private "void" "Init" [];
    fn Protected "void" "PutCameraData" [ P "const unsigned char *" "_src" ];
    fn Protected "void" "PutCameraData"
       [ P "const unsigned char *" "_src";
         P "common::Time &" "last_update_time" ];
    fld Protected "std::shared_ptr<int>" "image_connect_count_";
    fld Protected "boost::shared_ptr<boost::mutex>" "image_connect_count_lock_";
    fn Protected "void" "ImageConnect" [];
    fn Protected "void" "ImageDisconnect" [];
    fld Protected "std::shared_ptr<bool>" "was_active_";
    fn Private "void" "SetHFOV" [ P Float64Ptr "hfov" ];
    fn Private "void" "SetUpdateRate" [ P Float64Ptr "update_rate" ];
    fld Protected "std::shared_ptr<rclcpp::Node>" "node_handle_";
    fld Protected "image_transport::Publisher" "image_pub_";
    fld Private "std::shared_ptr<image_transport::ImageTransport>" "itnode_";
    MField (mkField Protected "rmw_qos_profile_t" "qos_profile"
                    (Some (Ident "rmw_qos_profile_sensor_data")));
    fld Protected "sensor_msgs::msg::Image" "image_msg_";
    fld Private "std::string" "robot_namespace_";
    fld Private "std::string" "camera_name_";
    fld Protected "std::string" "image_topic_name_";
    fn Protected "void" "PublishCameraInfo" [ P CameraInfoPub "camera_info_pub_" ];
    fn Protected "void" "PublishCameraInfo"
       [ P "common::Time &" "last_update_time" ];
    fn Protected "void" "PublishCameraInfo" [];
    fn Private "void" "InfoConnect" [];
    fn Private "void" "InfoDisconnect" [];
    fld Protected CameraInfoPub "camera_info_pub_";
    fld Protected "std::string" "camera_info_topic_name_";
    fld Protected "common::Time" "last_info_update_time_";
    fld Protected "std::string" "frame_name_";
    fld Protected "double" "update_rate_";
    fld Protected "double" "update_period_";
    fld Protected "common::Time" "last_update_time_";
    fld Protected "double" "cx_prime_";
    fld Protected "double" "cx_";
    fld Protected "double" "cy_";
    fld Protected "double" "focal_length_";
    fld Protected "double" "hack_baseline_";
    fld Protected "double" "distortion_k1_";
    fld Protected "double" "distortion_k2_";
    fld Protected "double" "distortion_k3_";
    fld Protected "double" "distortion_t1_";
    fld Protected "double" "distortion_t2_";
    fld Protected "boost::mutex" "lock_";
    fld Protected "std::string" "type_";
    fld Protected "int" "skip_";
    fld Protected "rclcpp::CallbackGroup::SharedPtr" "camera_queue_";
    fld Protected "rclcpp::executors::SingleThreadedExecutor" "executor";
    fn Protected "void" "CameraQueueThread" [];
    fld Protected "boost::thread" "callback_queue_thread_";
    fld Protected "unsigned int" "width_";
    fld Protected "unsigned int" "height_";
    fld Protected "unsigned int" "depth_";
    fld Protected "std::string" "format_";
    fld Protected "sensors::SensorPtr" "parentSensor_";
    fld Protected "rendering::CameraPtr" "camera_";
    fld Protected "physics::WorldPtr" "world_";
    fld Private "event::ConnectionPtr" "newFrameConnection_";
    fld Protected "common::Time" "sensor_update_time_";
    fld Protected "physics::WorldPtr" "world";
    fld Private "sdf::ElementPtr" "sdf";
    fn Private "void" "LoadThread" [];
    fld Private "boost::thread" "deferred_load_thread_";
    fld Private "event::EventT<void()>" "load_event_";
    fld Protected "bool" "initialized_";
    MFriendClass "GazeboRosMultiCamera" ].

(** *** The header file (lines 18-195) *)

Definition util_ros_cam_h : translation_unit :=
  mkUnit "GAZEBO_ROS_CAMERA_UTILS_HH"
    [ "string"; "boost/thread.hpp"; "boost/thread/mutex.hpp";
      "rclcpp/rclcpp.hpp"; "rclcpp/callback_group.hpp";
      "rclcpp/publisher_options.hpp";
      "sensor_msgs/msg/point_cloud.hpp"; "sensor_msgs/msg/image.hpp";
      "sensor_msgs/image_encodings.hpp"; "sensor_msgs/fill_image.hpp";
      "sensor_msgs/msg/camera_info.hpp"; "std_msgs/msg/float64.hpp";
      "image_transport/image_transport.h";
      "gazebo/physics/physics.hh"; "gazebo/transport/TransportTypes.hh";
      "gazebo/msgs/MessageTypes.hh"; "gazebo/common/Time.hh";
      "gazebo/sensors/SensorTypes.hh"; "gazebo/plugins/CameraPlugin.hh" ]
    "gazebo"
    [ ForwardClass "GazeboRosMultiCamera";
      ClassDef "GazeboRosCameraUtils" GazeboRosCameraUtils_members ].

(** *** Queries over the declarations *)

Definition methods_of (ms : list member) : list method :=
  flat_map (fun x => match x with MMethod m => [m] | _ => [] end) ms.

Definition fields_of (ms : list member) : list field :=
  flat_map (fun x => match x with MField f => [f] | _ => [] end) ms.

Definition methods : list method := methods_of GazeboRosCameraUtils_members.
Definition fields : list field := fields_of GazeboRosCameraUtils_members.

Definition defined_classes (u : translation_unit) : list string :=
  flat_map (fun d => match d with ClassDef n _ => [n] | _ => [] end) (decls u).

Definition forward_classes (u : translation_unit) : list string :=
  flat_map (fun d => match d with ForwardClass n => [n] | _ => [] end) (decls u).

Definition fields_of_type (ty : string) : list string :=
  map f_name (filter (fun f => String.eqb (f_type f) ty) fields).

Definition field_named (n : string) : option field :=
  find (fun f => String.eqb (f_name f) n) fields.

Definition methods_named (n : string) : list method :=
  filter (fun m => String.eqb (m_name m) n) methods.

Definition takes (ty : string) (m : method) : bool :=
  existsb (fun p => String.eqb (p_type p) ty) (m_params m).

(** Member functions with a parameter of the given spelled type. *)
Definition methods_taking (ty : string) : list string :=
  map m_name (filter (takes ty) methods).

(** The spelled return type is one of the given ones. *)
Definition returns_one_of (tys : list string) (m : method) : bool :=
  match m_ret m with
  | Some r => existsb (String.eqb r) tys
  | None => false
  end.

Definition is_special (m : method) : bool :=
  match m_special m with Ordinary => false | _ => true end.

(** *** Calls: default arguments and viability

    A call with [k] arguments can use a function with [n] parameters when
    [k <= n] and every parameter after the [k]-th has a default argument;
    the missing arguments are then taken from the defaults. *)

Fixpoint complete (ps : list param) (args : list expr) : option (list expr) :=
  match ps, args with
  | [], [] => Some []
  | [], _ :: _ => None
  | p :: ps', a :: args' => option_map (cons a) (complete ps' args')
  | p :: ps', [] =>
      match p_default p with
      | Some d => option_map (cons d) (complete ps' [])
      | None => None
      end
  end.

(** The overloads of [name] that a call with [args] can use, each with the
    argument list it receives. *)
Definition viable (name : string) (args : list expr) : list (method * list expr) :=
  flat_map (fun m => match complete (m_params m) args with
                     | Some full => [(m, full)]
                     | None => []
                     end)
           (methods_named name).

(** The call is resolved when exactly one overload is viable.  Ranking of
    several viable candidates by conversions is not modelled: the [Load]
    and [PutCameraData] overloads are separated by arity, and a call that
    leaves several candidates (the one-argument [PublishCameraInfo]) gets
    no answer here. *)
Definition resolve (name : string) (args : list expr) : option (method * list expr) :=
  match viable name args with
  | [c] => Some c
  | _ => None
  end.

(** *** Default arguments *)

Definition has_default (p : param) : bool :=
  match p_default p with Some _ => true | None => false end.

(** *** Member access

    Where a use of a member is written: in the class itself, in another
    class (named, and derived from this one or not), or outside any
    class. *)
Inductive context :=
| InClass
| InOtherClass (name : string) (derived : bool)
| Elsewhere.

(** The classes named in [friend] declarations (line 192). *)
Definition friends : list string :=
  flat_map (fun x => match x with MFriendClass n => [n] | _ => [] end)
           GazeboRosCameraUtils_members.

(** Access check: the class and its friends reach everything, a derived
    class the public and protected members, everybody else the public
    ones. *)
Definition accessible (ctx : context) (a : access) : bool :=
  match ctx with
  | InClass => true
  | InOtherClass n derived =>
      existsb (String.eqb n) friends
      || match a with
         | Public => true
         | Protected => derived
         | Private => false
         end
  | Elsewhere => match a with Public => true | _ => false end
  end.

(** Names and access of the member functions and of the data members. *)
Definition method_entries : list (string * access) :=
  map (fun m => (m_name m, m_access m)) methods.

Definition field_entries : list (string * access) :=
  map (fun f => (f_name f, f_access f)) fields.

Definition visible (ctx : context) (es : list (string * access)) : list string :=
  map fst (filter (fun e => accessible ctx (snd e)) es).

Definition hidden (ctx : context) (es : list (string * access)) : list string :=
  map fst (filter (fun e => negb (accessible ctx (snd e))) es).

End Header.

(* ================================================================== *)
(** ** Operational model of the member functions *)
(* ================================================================== *)

Module Camera.

Local Open Scope Z_scope.

(** *** Machine integers: [int] is 32 bits, two's complement *)

Definition INT_MIN : Z := -2147483648.
Definition INT_MAX : Z := 2147483647.

Definition wrap_int (z : Z) : Z := (z + 2147483648) mod 4294967296 - 2147483648.

(** *** The collaborators, reduced to what the class reads and writes *)

(** [double] values are IEEE-754 binary64 data; the class only stores and
    forwards them. *)
Definition double : Type := spec_float.

(** [std_msgs::msg::Float64]: one field, [data]. *)
Record Float64 := mkFloat64 { data : double }.

(** The simulator's sensor object behind [parentSensor_]
    ([IsActive]/[SetActive], [UpdateRate]/[SetUpdateRate]). *)
Record Sensor := mkSensor {
  IsActive : bool;
  UpdateRate : double
}.

(** The simulator's rendering camera behind [camera_] ([HFOV]/[SetHFOV]). *)
Record RenderingCamera := mkRenderingCamera { HFOV : double }.

(** State of [boost::thread deferred_load_thread_]: not started, started
    and blocked until the middleware is up, finished. *)
Inductive thread_state := NotStarted | Waiting | Finished.

Inductive config_handler := OnSetHFOV | OnSetUpdateRate.

(** The middleware endpoints the class owns: [image_pub_],
    [camera_info_pub_] and the two [Float64] subscriptions. *)
Inductive endpoint :=
| ImagePublisher
| CameraInfoPublisher
| Float64Subscription (h : config_handler).

(** The two subscriber callbacks of the image topic. *)
Inductive call := ImageConnectCall | ImageDisconnectCall.

(** Sample collaborators: a sensor that is not active and updates at 30 Hz,
    and a camera with a field of view of 1.5 rad. *)
Definition idle_sensor : Sensor := mkSensor false (S754_finite false 15 1).
Definition sample_camera : RenderingCamera :=
  mkRenderingCamera (S754_finite false 3 (-1)).

Section Middleware.

(** The middleware's QoS type and its predefined sensor-data profile are
    declared by the middleware, outside this repository. *)
Variable rmw_qos_profile_t : Type.
Variable rmw_qos_profile_sensor_data : rmw_qos_profile_t.

Record Topic := mkTopic {
  topic_endpoint : endpoint;
  topic_qos : rmw_qos_profile_t
}.

(** The fields of the class that the modelled functions touch.  The
    [shared_ptr] members [image_connect_count_] and [was_active_] are
    represented by the cells they point to, [parentSensor_] and
    [camera_] by the simulator objects they point to.
    [middleware_ready] is the environment: whether the middleware has
    come up. *)
Record State := mkState {
  image_connect_count_ : Z;
  was_active_ : bool;
  parentSensor_ : Sensor;
  camera_ : RenderingCamera;
  qos_profile : rmw_qos_profile_t;
  topics : list Topic;
  middleware_ready : bool;
  deferred_load_thread_ : thread_state;
  initialized_ : bool
}.

Definition set_count (n : Z) (st : State) : State :=
  mkState n (was_active_ st) (parentSensor_ st) (camera_ st)
          (qos_profile st) (topics st) (middleware_ready st)
          (deferred_load_thread_ st) (initialized_ st).

Definition set_was_active (b : bool) (st : State) : State :=
  mkState (image_connect_count_ st) b (parentSensor_ st) (camera_ st)
          (qos_profile st) (topics st) (middleware_ready st)
          (deferred_load_thread_ st) (initialized_ st).

Definition set_sensor (s : Sensor) (st : State) : State :=
  mkState (image_connect_count_ st) (was_active_ st) s (camera_ st)
          (qos_profile st) (topics st) (middleware_ready st)
          (deferred_load_thread_ st) (initialized_ st).

Definition set_camera (c : RenderingCamera) (st : State) : State :=
  mkState (image_connect_count_ st) (was_active_ st) (parentSensor_ st) c
          (qos_profile st) (topics st) (middleware_ready st)
          (deferred_load_thread_ st) (initialized_ st).

Definition set_topics (ts : list Topic) (st : State) : State :=
  mkState (image_connect_count_ st) (was_active_ st) (parentSensor_ st)
          (camera_ st) (qos_profile st) ts (middleware_ready st)
          (deferred_load_thread_ st) (initialized_ st).

Definition set_ready (b : bool) (st : State) : State :=
  mkState (image_connect_count_ st) (was_active_ st) (parentSensor_ st)
          (camera_ st) (qos_profile st) (topics st) b
          (deferred_load_thread_ st) (initialized_ st).

Definition set_thread (t : thread_state) (st : State) : State :=
  mkState (image_connect_count_ st) (was_active_ st) (parentSensor_ st)
          (camera_ st) (qos_profile st) (topics st) (middleware_ready st)
          t (initialized_ st).

Definition set_initialized (b : bool) (st : State) : State :=
  mkState (image_connect_count_ st) (was_active_ st) (parentSensor_ st)
          (camera_ st) (qos_profile st) (topics st) (middleware_ready st)
          (deferred_load_thread_ st) b.

Definition SetActive (b : bool) (s : Sensor) : Sensor :=
  mkSensor b (UpdateRate s).

(** Modelled from the spec: the constructor body is missing.  The
    connection counter counts image connections (line 86), so it starts
    at zero; [initialized_] is true only once the utility is initialised
    (line 189), so it starts false; the load thread has not been started;
    no topic exists yet.  [qos_profile] takes its default member
    initialiser, which is in the header (line 107).  [s], [c] and
    [ready] are the simulator objects and the middleware as the class
    finds them. *)
Definition GazeboRosCameraUtils_new
           (s : Sensor) (c : RenderingCamera) (ready : bool) : State :=
  mkState 0 false s c rmw_qos_profile_sensor_data [] ready NotStarted false.

(** Modelled from the spec: the body of [ImageConnect] is missing.  The
    spec calls it connect/disconnect reference counting that drives
    activation; the header says the counter keeps track of the number of
    image connections (line 86) and that [was_active_] keeps track, when
    the camera is activated through a subscription, of whether it was
    already active (lines 93-95).  So: on the first connection remember
    the sensor's active flag, count the connection on the [int] cell,
    activate the sensor. *)
Definition ImageConnect (st : State) : State :=
  let st1 := if image_connect_count_ st =? 0
             then set_was_active (IsActive (parentSensor_ st)) st
             else st in
  let st2 := set_count (wrap_int (image_connect_count_ st1 + 1)) st1 in
  set_sensor (SetActive true (parentSensor_ st2)) st2.

(** Modelled from the spec: the body of [ImageDisconnect] is missing.
    Connect/disconnect reference counting: the connection is taken off
    the [int] cell; when no subscriber is left the sensor resumes the
    state remembered in [was_active_] (line 95: resume state when
    unsubscribed). *)
Definition ImageDisconnect (st : State) : State :=
  let st1 := set_count (wrap_int (image_connect_count_ st - 1)) st in
  if image_connect_count_ st1 <=? 0
  then set_sensor (SetActive (was_active_ st1) (parentSensor_ st1)) st1
  else st1.

(** Modelled from the spec: the body of [SetHFOV] is missing.  The spec
    says field-of-view changes are forwarded from the middleware message
    into the simulator's object: the camera's horizontal field of view
    becomes the message's [data]. *)
Definition SetHFOV (hfov : Float64) (st : State) : State :=
  set_camera (mkRenderingCamera (data hfov)) st.

(** Modelled from the spec: the body of [SetUpdateRate] is missing.  The
    spec says update-rate changes are forwarded from the middleware
    message into the simulator's sensor object. *)
Definition SetUpdateRate (update_rate : Float64) (st : State) : State :=
  set_sensor (mkSensor (IsActive (parentSensor_ st)) (data update_rate)) st.

(** Modelled from the spec: the body of [Load] is missing.  The spec says
    a background thread defers initialization until the middleware is
    ready (header, line 183: deferred load in case ros is blocking):
    [Load] starts [deferred_load_thread_] on [LoadThread] and returns. *)
Definition Load (st : State) : State := set_thread Waiting st.

(** Modelled from the spec: the body of [Init] is missing.  It creates
    the topics the spec lists (image, camera-info, float64 configuration
    topics) with the class's QoS profile and marks the utility
    initialised (line 189). *)
Definition Init (st : State) : State :=
  let q := qos_profile st in
  set_initialized true
    (set_topics [ mkTopic ImagePublisher q;
                  mkTopic CameraInfoPublisher q;
                  mkTopic (Float64Subscription OnSetHFOV) q;
                  mkTopic (Float64Subscription OnSetUpdateRate) q ] st).

(** Modelled from the spec: the body of [LoadThread] is missing.  Run on
    [deferred_load_thread_] once the middleware is ready: it performs
    the initialization and the thread ends. *)
Definition LoadThread (st : State) : State := set_thread Finished (Init st).

(** *** Runs of subscriber callbacks *)

Definition do_call (c : call) (st : State) : State :=
  match c with
  | ImageConnectCall => ImageConnect st
  | ImageDisconnectCall => ImageDisconnect st
  end.

Definition run (calls : list call) (st : State) : State :=
  fold_left (fun s c => do_call c s) calls st.

Definition is_connect (c : call) : bool :=
  match c with ImageConnectCall => true | ImageDisconnectCall => false end.

(** Number of [ImageConnect] calls and of [ImageDisconnect] calls. *)
Definition connects (calls : list call) : Z :=
  Z.of_nat (length (filter is_connect calls)).

Definition disconnects (calls : list call) : Z :=
  Z.of_nat (length (filter (fun c => negb (is_connect c)) calls)).

(** Every disconnect answers an earlier connect that is still open;
    [open] is the number of connections open before [calls]. *)
Fixpoint matched (open : nat) (calls : list call) : bool :=
  match calls with
  | [] => true
  | ImageConnectCall :: rest => matched (S open) rest
  | ImageDisconnectCall :: rest =>
      match open with
      | O => false
      | S open' => matched open' rest
      end
  end.


(** *** The class in its environment: interleaved events *)

Inductive event :=
| CallLoad
| MiddlewareUp
| RunLoadThread
| Subscriber (c : call)
| MsgSetHFOV (m : Float64)
| MsgSetUpdateRate (m : Float64).

(** Modelled from the spec: the host that calls the class is missing.  One
    event of the plugin's life: the simulator calls [Load] (once), the
    middleware comes up, the deferred load thread runs (only after it was
    started and the middleware is up), a subscriber connects or
    disconnects, a configuration message arrives. *)
Inductive step : State -> event -> State -> Prop :=
| step_Load st :
    deferred_load_thread_ st = NotStarted ->
    step st CallLoad (Load st)
| step_MiddlewareUp st :
    step st MiddlewareUp (set_ready true st)
| step_LoadThread st :
    deferred_load_thread_ st = Waiting ->
    middleware_ready st = true ->
    step st RunLoadThread (LoadThread st)
| step_Subscriber st c :
    step st (Subscriber c) (do_call c st)
| step_SetHFOV st m :
    step st (MsgSetHFOV m) (SetHFOV m st)
| step_SetUpdateRate st m :
    step st (MsgSetUpdateRate m) (SetUpdateRate m st).

Inductive reachable (s0 : State) : State -> Prop :=
| reach_start : reachable s0 s0
| reach_step st e st' :
    reachable s0 st -> step st e st' -> reachable s0 st'.

(** The same, as a function: [None] when the event cannot happen. *)
Definition exec (e : event) (st : State) : option State :=
  match e with
  | CallLoad =>
      match deferred_load_thread_ st with
      | NotStarted => Some (Load st)
      | _ => None
      end
  | MiddlewareUp => Some (set_ready true st)
  | RunLoadThread =>
      match deferred_load_thread_ st, middleware_ready st with
      | Waiting, true => Some (LoadThread st)
      | _, _ => None
      end
  | Subscriber c => Some (do_call c st)
  | MsgSetHFOV m => Some (SetHFOV m st)
  | MsgSetUpdateRate m => Some (SetUpdateRate m st)
  end.

Fixpoint exec_all (es : list event) (st : State) : option State :=
  match es with
  | [] => Some st
  | e :: es' =>
      match exec e st with
      | Some st' => exec_all es' st'
      | None => None
      end
  end.

(** What [was_active_] and the sensor hold, relative to the sensor's active
    flag [a0] before the first connection: with no connection open the
    sensor is as it was, with one open the flag is remembered and the
    sensor runs. *)
Definition resume_inv (a0 : bool) (st : State) : Prop :=
  (image_connect_count_ st = 0 -> IsActive (parentSensor_ st) = a0) /\
  (0 < image_connect_count_ st ->
     was_active_ st = a0 /\ IsActive (parentSensor_ st) = true).

(** The endpoints [Init] creates. *)
Definition all_endpoints : list endpoint :=
  [ ImagePublisher; CameraInfoPublisher;
    Float64Subscription OnSetHFOV; Float64Subscription OnSetUpdateRate ].

(* ------------------------------------------------------------------ *)
(** *** Facts about the model *)
(* ------------------------------------------------------------------ *)

Lemma wrap_int_small (z : Z) : INT_MIN <= z <= INT_MAX -> wrap_int z = z.
Proof.
  unfold INT_MIN, INT_MAX, wrap_int. intros Hz.
  rewrite Z.mod_small; lia.
Qed.

Lemma wrap_int_range (z : Z) : INT_MIN <= wrap_int z <= INT_MAX.
Proof.
  unfold INT_MIN, INT_MAX, wrap_int.
  pose proof (Z.mod_pos_bound (z + 2147483648) 4294967296 ltac:(lia)). lia.
Qed.

Lemma count_ImageConnect (st : State) :
  image_connect_count_ (ImageConnect st)
  = wrap_int (image_connect_count_ st + 1).
Proof.
  unfold ImageConnect. destruct (image_connect_count_ st =? 0); reflexivity.
Qed.

Lemma count_ImageDisconnect (st : State) :
  image_connect_count_ (ImageDisconnect st)
  = wrap_int (image_connect_count_ st - 1).
Proof.
  unfold ImageDisconnect.
  destruct (image_connect_count_ (set_count _ st) <=? 0); reflexivity.
Qed.

Lemma active_ImageConnect (st : State) :
  IsActive (parentSensor_ (ImageConnect st)) = true.
Proof. reflexivity. Qed.

Lemma was_active_ImageConnect (st : State) :
  was_active_ (ImageConnect st)
  = if image_connect_count_ st =? 0
    then IsActive (parentSensor_ st) else was_active_ st.
Proof.
  unfold ImageConnect. destruct (image_connect_count_ st =? 0); reflexivity.
Qed.

Lemma was_active_ImageDisconnect (st : State) :
  was_active_ (ImageDisconnect st) = was_active_ st.
Proof.
  unfold ImageDisconnect.
  destruct (image_connect_count_ (set_count _ st) <=? 0); reflexivity.
Qed.

Lemma active_ImageDisconnect (st : State) :
  IsActive (parentSensor_ (ImageDisconnect st))
  = if wrap_int (image_connect_count_ st - 1) <=? 0
    then was_active_ st else IsActive (parentSensor_ st).
Proof.
  unfold ImageDisconnect. cbn [image_connect_count_ set_count].
  destruct (wrap_int (image_connect_count_ st - 1) <=? 0); reflexivity.
Qed.

Lemma connects_cons (c : call) (calls : list call) :
  connects (c :: calls) = (if is_connect c then 1 else 0) + connects calls.
Proof.
  unfold connects. cbn [filter]. destruct (is_connect c); cbn [length]; lia.
Qed.

Lemma disconnects_cons (c : call) (calls : list call) :
  disconnects (c :: calls)
  = (if is_connect c then 0 else 1) + disconnects calls.
Proof.
  unfold disconnects. cbn [filter].
  destruct (is_connect c); cbn [negb length]; lia.
Qed.

Lemma connects_disconnects_length (calls : list call) :
  connects calls + disconnects calls = Z.of_nat (length calls).
Proof.
  induction calls as [|c calls IH].
  - reflexivity.
  - rewrite connects_cons, disconnects_cons. cbn [length].
    destruct (is_connect c); lia.
Qed.

Lemma connects_nonneg (calls : list call) : 0 <= connects calls.
Proof. unfold connects. lia. Qed.

Lemma disconnects_nonneg (calls : list call) : 0 <= disconnects calls.
Proof. unfold disconnects. lia. Qed.

(** Without overflow the cell holds the start value plus the connects minus
    the disconnects. *)
Lemma run_count (calls : list call) :
  forall st : State,
    INT_MIN < image_connect_count_ st - Z.of_nat (length calls) ->
    image_connect_count_ st + Z.of_nat (length calls) < INT_MAX ->
    image_connect_count_ (run calls st)
    = image_connect_count_ st + connects calls - disconnects calls.
Proof.
  induction calls as [|c calls IH]; intros st Hlo Hhi.
  - cbn. unfold connects, disconnects. cbn. lia.
  - cbn [length] in Hlo, Hhi.
    change (run (c :: calls) st) with (run calls (do_call c st)).
    rewrite connects_cons, disconnects_cons.
    destruct c; cbn [do_call is_connect].
    + assert (Hc : image_connect_count_ (ImageConnect st)
                   = image_connect_count_ st + 1).
      { rewrite count_ImageConnect. apply wrap_int_small.
        unfold INT_MIN, INT_MAX in *. lia. }
      rewrite IH; rewrite Hc; lia.
    + assert (Hc : image_connect_count_ (ImageDisconnect st)
                   = image_connect_count_ st - 1).
      { rewrite count_ImageDisconnect. apply wrap_int_small.
        unfold INT_MIN, INT_MAX in *. lia. }
      rewrite IH; rewrite Hc; lia.
Qed.





Lemma resume_inv_ImageConnect (a0 : bool) (st : State) :
  0 <= image_connect_count_ st < INT_MAX ->
  resume_inv a0 st -> resume_inv a0 (ImageConnect st).
Proof.
  intros Hr [Hzero Hpos].
  assert (Hc : image_connect_count_ (ImageConnect st)
               = image_connect_count_ st + 1).
  { rewrite count_ImageConnect. apply wrap_int_small.
    unfold INT_MIN, INT_MAX in *. lia. }
  split; rewrite Hc; intros H; [lia|].
  rewrite was_active_ImageConnect, active_ImageConnect.
  split; [|reflexivity].
  destruct (Z.eqb_spec (image_connect_count_ st) 0) as [E|E].
  - apply Hzero, E.
  - apply Hpos. lia.
Qed.

Lemma resume_inv_ImageDisconnect (a0 : bool) (st : State) :
  0 < image_connect_count_ st <= INT_MAX ->
  resume_inv a0 st -> resume_inv a0 (ImageDisconnect st).
Proof.
  intros Hr [Hzero Hpos].
  assert (Hw : wrap_int (image_connect_count_ st - 1)
               = image_connect_count_ st - 1).
  { apply wrap_int_small. unfold INT_MIN, INT_MAX in *. lia. }
  destruct (Hpos ltac:(lia)) as [Hwas Hact].
  split; rewrite count_ImageDisconnect, Hw; intros H;
    rewrite ?was_active_ImageDisconnect, active_ImageDisconnect, Hw.
  - destruct (Z.leb_spec (image_connect_count_ st - 1) 0); [exact Hwas|lia].
  - destruct (Z.leb_spec (image_connect_count_ st - 1) 0); [lia|].
    split; assumption.
Qed.

(** A matched run keeps [resume_inv]. *)
Lemma run_resume_inv (a0 : bool) (calls : list call) :
  forall (open : nat) (st : State),
    image_connect_count_ st = Z.of_nat open ->
    matched open calls = true ->
    Z.of_nat open + Z.of_nat (length calls) < INT_MAX ->
    resume_inv a0 st ->
    resume_inv a0 (run calls st).
Proof.
  induction calls as [|c calls IH]; intros open st Hcount Hm Hlen Hinv.
  - exact Hinv.
  - change (run (c :: calls) st) with (run calls (do_call c st)).
    cbn [length] in Hlen.
    destruct c; cbn [matched do_call] in *.
    + apply (IH (S open)); try assumption.
      * rewrite count_ImageConnect, wrap_int_small;
          unfold INT_MIN, INT_MAX in *; lia.
      * lia.
      * apply resume_inv_ImageConnect; [|assumption].
        unfold INT_MAX in *. lia.
    + destruct open as [|open']; [discriminate|].
      apply (IH open'); try assumption.
      * rewrite count_ImageDisconnect, wrap_int_small;
          unfold INT_MIN, INT_MAX in *; lia.
      * lia.
      * apply resume_inv_ImageDisconnect; [|assumption].
        unfold INT_MAX in *. lia.
Qed.

Lemma step_exec (st : State) (e : event) (st' : State) :
  step st e st' <-> exec e st = Some st'.
Proof.
  split.
  - intros H; destruct H; cbn [exec]; try reflexivity.
    + rewrite H. reflexivity.
    + rewrite H, H0. reflexivity.
  - destruct e; cbn [exec].
    + destruct (deferred_load_thread_ st) eqn:E; intros H; inversion H.
      apply step_Load, E.
    + intros H; inversion H. apply step_MiddlewareUp.
    + destruct (deferred_load_thread_ st) eqn:E;
        destruct (middleware_ready st) eqn:R; intros H; inversion H.
      apply step_LoadThread; assumption.
    + intros H; inversion H. apply step_Subscriber.
    + intros H; inversion H. apply step_SetHFOV.
    + intros H; inversion H. apply step_SetUpdateRate.
Qed.

Lemma exec_all_reachable (es : list event) :
  forall s0 st st' : State,
    reachable s0 st -> exec_all es st = Some st' -> reachable s0 st'.
Proof.
  induction es as [|e es IH]; intros s0 st st' Hr He; cbn [exec_all] in He.
  - inversion He; subst. exact Hr.
  - destruct (exec e st) as [st1|] eqn:E; [|discriminate].
    apply (IH s0 st1); [|exact He].
    apply (reach_step s0 st e st1 Hr). apply step_exec, E.
Qed.

(** The deferred load, as an invariant: the utility is initialised only when
    the load thread has finished and the middleware is up. *)
Lemma initialized_inv (s0 st : State) :
  initialized_ s0 = false ->
  reachable s0 st ->
  initialized_ st = true ->
  deferred_load_thread_ st = Finished /\ middleware_ready st = true.
Proof.
  intros H0 Hr. induction Hr as [|st e st' Hr IH Hs].
  - rewrite H0. discriminate.
  - destruct Hs; cbn.
    + intros Hi. destruct (IH Hi) as [Ht _]. congruence.
    + intros Hi. split; [apply IH, Hi|reflexivity].
    + intros _. split; [reflexivity|assumption].
    + destruct c; cbn [do_call];
        [unfold ImageConnect; destruct (image_connect_count_ st =? 0)
        |unfold ImageDisconnect;
         destruct (image_connect_count_ (set_count _ st) <=? 0)];
        exact IH.
    + exact IH.
    + exact IH.
Qed.

(** No event writes [qos_profile], and topics are only ever created with
    it. *)
Lemma qos_inv (s0 st : State) :
  qos_profile s0 = rmw_qos_profile_sensor_data ->
  topics s0 = [] ->
  reachable s0 st ->
  qos_profile st = rmw_qos_profile_sensor_data /\
  (topics st = [] \/
   topics st = map (fun e => mkTopic e rmw_qos_profile_sensor_data)
                   all_endpoints).
Proof.
  intros Hq Ht Hr. induction Hr as [|st e st' Hr IH Hs].
  - split; [exact Hq|left; exact Ht].
  - destruct IH as [IHq IHt]. destruct Hs.
    + split; assumption.
    + split; assumption.
    + split; [exact IHq|right]. cbn. rewrite IHq. reflexivity.
    + destruct c; cbn [do_call];
        [unfold ImageConnect; destruct (image_connect_count_ st =? 0)
        |unfold ImageDisconnect;
         destruct (image_connect_count_ (set_count _ st) <=? 0)];
        split; assumption.
    + split; assumption.
    + split; assumption.
Qed.

Lemma topics_inv (s0 st : State) :
  initialized_ s0 = false ->
  reachable s0 st ->
  initialized_ st = true ->
  map topic_endpoint (topics st) = all_endpoints.
Proof.
  intros H0 Hr. induction Hr as [|st e st' Hr IH Hs].
  - rewrite H0. discriminate.
  - destruct Hs; cbn; try exact IH.
    + intros _. reflexivity.
    + destruct c; cbn [do_call];
        [unfold ImageConnect; destruct (image_connect_count_ st =? 0)
        |unfold ImageDisconnect;
         destruct (image_connect_count_ (set_count _ st) <=? 0)];
        exact IH.
Qed.

Lemma finished_inv (s0 st : State) :
  deferred_load_thread_ s0 = NotStarted ->
  reachable s0 st ->
  deferred_load_thread_ st = Finished ->
  initialized_ st = true.
Proof.
  intros H0 Hr. induction Hr as [|st e st' Hr IH Hs].
  - rewrite H0. discriminate.
  - destruct Hs; cbn; try exact IH.
    + discriminate.
    + intros _. reflexivity.
    + destruct c; cbn [do_call];
        [unfold ImageConnect; destruct (image_connect_count_ st =? 0)
        |unfold ImageDisconnect;
         destruct (image_connect_count_ (set_count _ st) <=? 0)];
        exact IH.
Qed.

(** From every reachable state the deferred initialization can complete. *)
Lemma initialization_completes (s0 st : State) :
  deferred_load_thread_ s0 = NotStarted ->
  reachable s0 st ->
  exists (es : list event) (st' : State),
    exec_all es st = Some st' /\ initialized_ st' = true.
Proof.
  intros H0 Hr.
  destruct (deferred_load_thread_ st) eqn:E.
  - exists [CallLoad; MiddlewareUp; RunLoadThread]. eexists.
    cbn [exec_all exec]. rewrite E. cbn. split; reflexivity.
  - exists [MiddlewareUp; RunLoadThread]. eexists.
    cbn [exec_all exec]. cbn. rewrite E. split; reflexivity.
  - exists []. exists st. split; [reflexivity|].
    apply (finished_inv s0); assumption.
Qed.

(* ------------------------------------------------------------------ *)
(** *** The claims about the member functions *)
(* ------------------------------------------------------------------ *)


(** C2.  The member functions that take a middleware [Float64] message are
    exactly [SetHFOV] and [SetUpdateRate]; [SetHFOV] sets the camera's
    horizontal field of view to the message value and [SetUpdateRate] sets
    the sensor's update rate to the message value, each leaves every other
    field (the sensor's active flag included) as it was, and so the two
    commute. *)
Theorem config_handlers_forward (m : Float64) (st : State) :
  Header.methods_taking Header.Float64Ptr = ["SetHFOV"; "SetUpdateRate"]%string /\
  HFOV (camera_ (SetHFOV m st)) = data m /\
  (forall c : RenderingCamera, set_camera c (SetHFOV m st) = set_camera c st) /\
  UpdateRate (parentSensor_ (SetUpdateRate m st)) = data m /\
  IsActive (parentSensor_ (SetUpdateRate m st)) = IsActive (parentSensor_ st) /\
  (forall x : Sensor, set_sensor x (SetUpdateRate m st) = set_sensor x st) /\
  (forall m' : Float64,
     SetHFOV m (SetUpdateRate m' st) = SetUpdateRate m' (SetHFOV m st)).
Proof.
  repeat split.
Qed.

(** C4.  In every state reachable from the constructed object: a call of
    [Load] returns with [initialized_] still false and the deferred load
    thread merely started; [initialized_] is true only if the deferred load
    thread has finished, which needs the middleware to be up; the run of
    [LoadThread] is what sets [initialized_]; and the deferred
    initialization can always complete. *)
Theorem initialization_is_deferred
        (s : Sensor) (c : RenderingCamera) (ready : bool) (st : State)
        (Hreach : reachable (GazeboRosCameraUtils_new s c ready) st) :
  (forall st', step st CallLoad st' ->
     initialized_ st' = false /\ deferred_load_thread_ st' = Waiting) /\
  (initialized_ st = true ->
     deferred_load_thread_ st = Finished /\ middleware_ready st = true) /\
  (forall st', step st RunLoadThread st' ->
     middleware_ready st = true /\
     initialized_ st' = true /\ deferred_load_thread_ st' = Finished) /\
  (exists (es : list event) (st' : State),
     exec_all es st = Some st' /\ initialized_ st' = true).
Proof.
  pose proof (initialized_inv (GazeboRosCameraUtils_new s c ready) st
                             eq_refl Hreach) as Hinv.
  repeat split.
  - inversion H; subst. cbn.
    destruct (initialized_ st) eqn:E; [|reflexivity].
    destruct (Hinv eq_refl) as [Ht _]. congruence.
  - inversion H; subst. reflexivity.
  - apply Hinv, H.
  - apply Hinv, H.
  - inversion H; subst. assumption.
  - inversion H; subst. reflexivity.
  - inversion H; subst. reflexivity.
  - apply (initialization_completes (GazeboRosCameraUtils_new s c ready) st
                                    eq_refl Hreach).
Qed.

(** C5.  The header initialises the field [qos_profile] with
    [rmw_qos_profile_sensor_data]; the constructed object has that value, it
    keeps it in every reachable state, every topic that exists in a
    reachable state was created with it, and once the utility is
    initialised the topics are the image publisher, the camera-info
    publisher and the two [Float64] configuration subscriptions. *)
Theorem topics_use_sensor_data_qos
        (s : Sensor) (c : RenderingCamera) (ready : bool) (st : State)
        (Hreach : reachable (GazeboRosCameraUtils_new s c ready) st) :
  option_map Header.f_init (Header.field_named "qos_profile")
  = Some (Some (Header.Ident "rmw_qos_profile_sensor_data")) /\
  qos_profile (GazeboRosCameraUtils_new s c ready)
  = rmw_qos_profile_sensor_data /\
  qos_profile st = rmw_qos_profile_sensor_data /\
  Forall (fun t => topic_qos t = rmw_qos_profile_sensor_data) (topics st) /\
  (initialized_ st = true -> map topic_endpoint (topics st) = all_endpoints).
Proof.
  destruct (qos_inv (GazeboRosCameraUtils_new s c ready) st
                    eq_refl eq_refl Hreach) as [Hq Ht].
  repeat split.
  - exact Hq.
  - destruct Ht as [Ht|Ht]; rewrite Ht.
    + constructor.
    + repeat constructor.
  - apply (topics_inv (GazeboRosCameraUtils_new s c ready) st eq_refl Hreach).
Qed.

(** C9.  From a state with no connection open, [ImageConnect] stores in
    [was_active_] whether the sensor was active; after any run of calls in
    which every disconnect answers an earlier connect, [was_active_] still
    holds that flag while a connection is open (and the sensor is active),
    and once the count is back at zero the sensor's active flag equals what
    it was before the first connect. *)
Theorem was_active_resumes
        (st0 : State) (calls : list call)
        (Hzero : image_connect_count_ st0 = 0)
        (Hmatched : matched 0 calls = true)
        (Hlen : Z.of_nat (length calls) < INT_MAX) :
  was_active_ (ImageConnect st0) = IsActive (parentSensor_ st0) /\
  (0 < image_connect_count_ (run calls st0) ->
     was_active_ (run calls st0) = IsActive (parentSensor_ st0) /\
     IsActive (parentSensor_ (run calls st0)) = true) /\
  (image_connect_count_ (run calls st0) = 0 ->
     IsActive (parentSensor_ (run calls st0)) = IsActive (parentSensor_ st0)).
Proof.
  assert (Hinv : resume_inv (IsActive (parentSensor_ st0)) (run calls st0)).
  { apply (run_resume_inv _ calls 0%nat).
    - exact Hzero.
    - exact Hmatched.
    - change (Z.of_nat 0) with 0. lia.
    - split; [reflexivity|lia]. }
  destruct Hinv as [Hz Hp].
  split; [|split].
  - rewrite was_active_ImageConnect, Hzero. reflexivity.
  - exact Hp.
  - exact Hz.
Qed.

End Middleware.

Arguments mkTopic {rmw_qos_profile_t} topic_endpoint topic_qos.
Arguments topic_endpoint {rmw_qos_profile_t} t.
Arguments topic_qos {rmw_qos_profile_t} t.
Arguments image_connect_count_ {rmw_qos_profile_t} s.
Arguments was_active_ {rmw_qos_profile_t} s.
Arguments parentSensor_ {rmw_qos_profile_t} s.
Arguments camera_ {rmw_qos_profile_t} s.
Arguments qos_profile {rmw_qos_profile_t} s.
Arguments topics {rmw_qos_profile_t} s.
Arguments middleware_ready {rmw_qos_profile_t} s.
Arguments deferred_load_thread_ {rmw_qos_profile_t} s.
Arguments initialized_ {rmw_qos_profile_t} s.
Arguments GazeboRosCameraUtils_new {rmw_qos_profile_t}
  rmw_qos_profile_sensor_data s c ready.
Arguments ImageConnect {rmw_qos_profile_t} st.
Arguments ImageDisconnect {rmw_qos_profile_t} st.
Arguments SetHFOV {rmw_qos_profile_t} hfov st.
Arguments SetUpdateRate {rmw_qos_profile_t} update_rate st.
Arguments Load {rmw_qos_profile_t} st.
Arguments Init {rmw_qos_profile_t} st.
Arguments LoadThread {rmw_qos_profile_t} st.
Arguments set_ready {rmw_qos_profile_t} b st.
Arguments run {rmw_qos_profile_t} calls st.
Arguments exec_all {rmw_qos_profile_t} es st.
Arguments reachable {rmw_qos_profile_t} s0 _.
Arguments step {rmw_qos_profile_t} _ _ _.

(* ------------------------------------------------------------------ *)
(** *** Concrete runs *)
(* ------------------------------------------------------------------ *)


(** The load sequence on a middleware that is not up yet: [Load], the
    middleware comes up, [LoadThread] runs. *)
Lemma initialization_is_deferred_witness :
  let new := GazeboRosCameraUtils_new tt idle_sensor sample_camera false in
  let st := LoadThread (set_ready true (Load new)) in
  reachable new st /\
  initialized_ (Load new) = false /\
  initialized_ st = true /\
  deferred_load_thread_ st = Finished /\ middleware_ready st = true.
Proof.
  intros new st.
  assert (Hreach : reachable new st).
  { apply (exec_all_reachable unit [CallLoad; MiddlewareUp; RunLoadThread]
                              new new st).
    - apply reach_start.
    - reflexivity. }
  split; [exact Hreach|].
  split; [reflexivity|].
  split; [reflexivity|].
  pose proof (initialization_is_deferred unit tt idle_sensor sample_camera
                false st Hreach) as (_ & H & _).
  exact (H eq_refl).
Defined.

(** After the load sequence every topic carries the sensor-data profile. *)
Lemma topics_use_sensor_data_qos_witness :
  let new := GazeboRosCameraUtils_new tt idle_sensor sample_camera false in
  let st := LoadThread (set_ready true (Load new)) in
  reachable new st /\
  qos_profile st = tt /\
  Forall (fun t => topic_qos t = tt) (topics st) /\
  length (topics st) = 4%nat.
Proof.
  intros new st.
  assert (Hreach : reachable new st).
  { apply (exec_all_reachable unit [CallLoad; MiddlewareUp; RunLoadThread]
                              new new st).
    - apply reach_start.
    - reflexivity. }
  split; [exact Hreach|].
  pose proof (topics_use_sensor_data_qos unit tt idle_sensor sample_camera
                false st Hreach) as (_ & _ & Hq & Hall & _).
  split; [exact Hq|]. split; [exact Hall|]. reflexivity.
Defined.

(** Two subscribers come and go on a sensor that was not active: it ends
    not active. *)
Lemma was_active_resumes_witness :
  let st0 := GazeboRosCameraUtils_new tt idle_sensor sample_camera true in
  let calls := [ImageConnectCall; ImageConnectCall;
                ImageDisconnectCall; ImageDisconnectCall] in
  image_connect_count_ st0 = 0 /\
  matched 0 calls = true /\
  Z.of_nat (length calls) < INT_MAX /\
  image_connect_count_ (run calls st0) = 0 /\
  IsActive (parentSensor_ (run calls st0)) = false.
Proof.
  intros st0 calls.
  split; [reflexivity|]. split; [reflexivity|]. split; [reflexivity|].
  split; [reflexivity|].
  pose proof (was_active_resumes unit st0 calls eq_refl eq_refl eq_refl)
    as (_ & _ & H).
  exact (H eq_refl).
Defined.

End Camera.

(* ================================================================== *)
(** ** What the header declares *)
(* ================================================================== *)

Module Declarations.

Import Header.

(** C3 (amended).  The class declares two members of type [boost::thread],
    [callback_queue_thread_] and [deferred_load_thread_], and each has its
    entry function among the members: [CameraQueueThread] and
    [LoadThread], both [void] and without parameters. *)
Theorem two_thread_members :
  fields_of_type "boost::thread"
  = ["callback_queue_thread_"; "deferred_load_thread_"] /\
  map (fun m => (m_ret m, m_params m)) (methods_named "CameraQueueThread")
  = [(Some "void", [])] /\
  map (fun m => (m_ret m, m_params m)) (methods_named "LoadThread")
  = [(Some "void", [])].
Proof. repeat split. Qed.

(** C3 as stated fails: [callback_queue_thread_] is a thread member of the
    class and it is not the deferred-initialization thread. *)
Lemma deferred_load_thread_not_only_thread :
  ~ (forall f : field,
       In f fields -> f_type f = "boost::thread" ->
       f_name f = "deferred_load_thread_").
Proof.
  intros H.
  specialize (H (mkField Protected "boost::thread" "callback_queue_thread_" None)).
  cbn [f_type f_name] in H.
  assert (Hin : In (mkField Protected "boost::thread" "callback_queue_thread_" None)
                   fields).
  { unfold fields, fields_of, GazeboRosCameraUtils_members, fld.
    cbn [flat_map app]. repeat (first [left; reflexivity | right]). }
  specialize (H Hin eq_refl). discriminate H.
Qed.

(** C6.  Every declared member function is the constructor or the
    destructor (no return type) or returns [void] or the connection handle
    [event::ConnectionPtr]; the only one returning a handle is [OnLoad]; and
    the header defines no type besides the class itself, so no error or
    status type. *)
Theorem no_error_returning_operation :
  Forall (fun m =>
            (m_ret m = None /\ m_special m <> Ordinary) \/
            m_ret m = Some "void" \/
            m_ret m = Some "event::ConnectionPtr") methods /\
  map m_name (filter (returns_one_of ["event::ConnectionPtr"]) methods)
  = ["OnLoad"] /\
  length (filter (returns_one_of ["void"]) methods) = 16%nat /\
  length (filter is_special methods) = 2%nat /\
  length methods = 19%nat /\
  defined_classes util_ros_cam_h = ["GazeboRosCameraUtils"].
Proof.
  split; [|repeat split].
  unfold methods, methods_of, GazeboRosCameraUtils_members, fn, fld, Load3, Load4.
  cbn [flat_map app].
  repeat (constructor;
          [first [ left; split; [reflexivity|discriminate]
                 | right; left; reflexivity
                 | right; right; reflexivity ] | ]).
  constructor.
Qed.

(** C7.  The header (namespace [gazebo]) defines exactly one class,
    [GazeboRosCameraUtils]; the only other class name it mentions is the
    forward-declared friend [GazeboRosMultiCamera].  The class has the
    simulator side ([Load], two public overloads; [PutCameraData], two
    overloads) and the middleware side ([image_pub_], [camera_info_pub_],
    and the two [Float64] handlers). *)
Theorem single_bridge_class :
  namespace_name util_ros_cam_h = "gazebo" /\
  defined_classes util_ros_cam_h = ["GazeboRosCameraUtils"] /\
  forward_classes util_ros_cam_h = ["GazeboRosMultiCamera"] /\
  map m_access (methods_named "Load") = [Public; Public] /\
  map (fun m => length (m_params m)) (methods_named "PutCameraData")
  = [1%nat; 2%nat] /\
  option_map f_type (field_named "image_pub_")
  = Some "image_transport::Publisher" /\
  option_map f_type (field_named "camera_info_pub_") = Some CameraInfoPub /\
  methods_taking Float64Ptr = ["SetHFOV"; "SetUpdateRate"].
Proof. repeat split. Qed.

(** C8.  The three-parameter [Load] declares the empty string as default
    for [_camera_name_suffix]; a call [Load(parent, sdf)] resolves to that
    overload with the argument list of [Load(parent, sdf, empty string)], so
    whatever the overloads do, both calls do the same; the four-parameter
    overload declares no default and is not viable for fewer than four
    arguments. *)
Theorem load_default_suffix (parent sdf : expr) :
  map p_default (m_params Load3) = [None; None; Some (StringLit EmptyString)] /\
  resolve "Load" [parent; sdf]
  = Some (Load3, [parent; sdf; StringLit EmptyString]) /\
  resolve "Load" [parent; sdf] = resolve "Load" [parent; sdf; StringLit EmptyString] /\
  (forall (B : Type) (behaviour : method * list expr -> B),
     option_map behaviour (resolve "Load" [parent; sdf])
     = option_map behaviour (resolve "Load" [parent; sdf; StringLit EmptyString])) /\
  map p_default (m_params Load4) = [None; None; None; None] /\
  (forall args : list expr,
     (length args < 4)%nat -> complete (m_params Load4) args = None) /\
  (forall a b c d : expr,
     resolve "Load" [a; b; c; d] = Some (Load4, [a; b; c; d])).
Proof.
  repeat split.
  intros args Hlen.
  destruct args as [|a1 [|a2 [|a3 [|a4 rest]]]]; try reflexivity.
  cbn [length] in Hlen. lia.
Qed.

End Declarations.

(* ================================================================== *)
(** ** The class as its users see it: call arity and member access *)
(* ================================================================== *)

Module Interface.

Import Header.
Local Open Scope list_scope.

(** *** Calls of functions without default arguments *)

Lemma complete_no_default (ps : list param) :
  forallb (fun p => negb (has_default p)) ps = true ->
  forall args full : list expr,
    complete ps args = Some full -> full = args.
Proof.
  induction ps as [|p ps IH]; intros Hn args full Hc.
  - destruct args; cbn in Hc; congruence.
  - cbn [forallb] in Hn. apply andb_true_iff in Hn as [Hp Hps].
    destruct args as [|a args]; cbn [complete] in Hc.
    + unfold has_default in Hp. destruct (p_default p); discriminate.
    + destruct (complete ps args) as [full'|] eqn:E; [|discriminate].
      cbn in Hc. inversion Hc; subst. f_equal. apply (IH Hps args), E.
Qed.

(** *** Access of code outside the class *)

Lemma stranger_not_friend (n : string) :
  n <> "GazeboRosMultiCamera" -> existsb (String.eqb n) friends = false.
Proof.
  intros Hn. cbn. rewrite (proj2 (String.eqb_neq n _) Hn). reflexivity.
Qed.

Lemma visible_ext (c1 c2 : context) (es : list (string * access)) :
  (forall a, accessible c1 a = accessible c2 a) ->
  visible c1 es = visible c2 es.
Proof.
  intros H. unfold visible. f_equal. apply filter_ext. intros e. apply H.
Qed.

Lemma hidden_ext (c1 c2 : context) (es : list (string * access)) :
  (forall a, accessible c1 a = accessible c2 a) ->
  hidden c1 es = hidden c2 es.
Proof.
  intros H. unfold hidden. f_equal. apply filter_ext. intros e.
  rewrite H. reflexivity.
Qed.

(* ------------------------------------------------------------------ *)
(** *** Properties of the declared interface *)
(* ------------------------------------------------------------------ *)

(** X2.  The suffix of the three-parameter [Load] is the only default
    argument of the class: every member function receives exactly the
    arguments written at the call, except [Load] called with two arguments,
    which receives the empty string as third. *)
Theorem only_default_is_load_suffix
        (m : method) (args full : list expr)
        (Hm : In m methods)
        (Hc : complete (m_params m) args = Some full) :
  full = args \/
  (m = Load3 /\
   exists parent sdf : expr,
     args = [parent; sdf] /\ full = [parent; sdf; StringLit EmptyString]).
Proof.
  cbv [methods methods_of GazeboRosCameraUtils_members fn fld flat_map app]
    in Hm.
  repeat (destruct Hm as [Hm|Hm];
          [subst m;
           first [ left; apply (complete_no_default _) with (2 := Hc);
                   reflexivity
                 | idtac ] | ]);
    [|contradiction].
  destruct args as [|a [|b [|c [|d rest]]]]; cbn in Hc;
    try discriminate; inversion Hc; subst.
  - right. split; [reflexivity|]. exists a, b. split; reflexivity.
  - left. reflexivity.
Qed.

(** X3.  [Load] can be called with two, three or four arguments and in no
    other way: two or three arguments select the three-parameter overload
    (two get the empty suffix added), four select the overload with the
    baseline, and a call with fewer than two or more than four arguments
    matches no overload. *)
Theorem load_resolution (args : list expr) :
  resolve "Load" args
  = match args with
    | [parent; sdf] => Some (Load3, [parent; sdf; StringLit EmptyString])
    | [_; _; _] => Some (Load3, args)
    | [_; _; _; _] => Some (Load4, args)
    | _ => None
    end.
Proof.
  destruct args as [|a [|b [|c [|d [|e rest]]]]]; reflexivity.
Qed.

(** X4.  The other two overloaded names.  [PutCameraData] has one candidate
    for one argument (the source buffer) and one for two (buffer and update
    time) and none otherwise.  [PublishCameraInfo] has one candidate for no
    argument, two for one argument (a camera-info publisher, or an update
    time: only the argument's type tells them apart) and none for more.
    Arguments are passed as written. *)
Theorem overload_candidates (args : list expr) :
  map (fun c => (map p_type (m_params (fst c)), snd c))
      (viable "PutCameraData" args)
  = match args with
    | [_] => [(["const unsigned char *"], args)]
    | [_; _] => [(["const unsigned char *"; "common::Time &"], args)]
    | _ => []
    end /\
  map (fun c => (map p_type (m_params (fst c)), snd c))
      (viable "PublishCameraInfo" args)
  = match args with
    | [] => [([], [])]
    | [_] => [([CameraInfoPub], args); (["common::Time &"], args)]
    | _ => []
    end.
Proof.
  destruct args as [|a [|b [|c rest]]]; split; reflexivity.
Qed.

(** X5.  Code outside the class, and code in any class that is neither
    derived from it nor its friend, reaches no data member at all and
    exactly five member functions: the constructor, the destructor, the two
    [Load] overloads and [OnLoad]. *)
Theorem external_interface (n : string)
        (Hn : n <> "GazeboRosMultiCamera") :
  visible Elsewhere field_entries = [] /\
  visible Elsewhere method_entries
  = ["GazeboRosCameraUtils"; "~GazeboRosCameraUtils"; "Load"; "Load"; "OnLoad"] /\
  visible (InOtherClass n false) field_entries = [] /\
  visible (InOtherClass n false) method_entries
  = ["GazeboRosCameraUtils"; "~GazeboRosCameraUtils"; "Load"; "Load"; "OnLoad"].
Proof.
  assert (He : forall a, accessible (InOtherClass n false) a
                         = accessible Elsewhere a).
  { intros a. cbn [accessible]. rewrite (stranger_not_friend n Hn).
    destruct a; reflexivity. }
  rewrite !(visible_ext _ _ _ He).
  repeat split.
Qed.

(** X6.  The only friend is [GazeboRosMultiCamera], and it reaches every
    member, derived or not.  A class derived from [GazeboRosCameraUtils]
    that is not the friend reaches everything except the private members:
    it cannot call [Init], [SetHFOV], [SetUpdateRate], [InfoConnect],
    [InfoDisconnect] or [LoadThread], and cannot touch [itnode_],
    [robot_namespace_], [camera_name_], [newFrameConnection_], [sdf],
    [deferred_load_thread_] or [load_event_]. *)
Theorem derived_and_friend_access (n : string) (derived : bool)
        (Hn : n <> "GazeboRosMultiCamera") :
  friends = ["GazeboRosMultiCamera"] /\
  hidden (InOtherClass "GazeboRosMultiCamera" derived)
         (method_entries ++ field_entries) = [] /\
  hidden (InOtherClass n true) method_entries
  = ["Init"; "SetHFOV"; "SetUpdateRate"; "InfoConnect"; "InfoDisconnect";
     "LoadThread"] /\
  hidden (InOtherClass n true) field_entries
  = ["itnode_"; "robot_namespace_"; "camera_name_"; "newFrameConnection_";
     "sdf"; "deferred_load_thread_"; "load_event_"].
Proof.
  assert (Hf : forall a, accessible (InOtherClass "GazeboRosMultiCamera" derived) a
                         = accessible InClass a).
  { intros a. reflexivity. }
  assert (Hd : forall a, accessible (InOtherClass n true) a
                         = accessible (InOtherClass EmptyString true) a).
  { intros a. cbn [accessible]. rewrite (stranger_not_friend n Hn).
    reflexivity. }
  rewrite (hidden_ext _ _ _ Hf), !(hidden_ext _ _ _ Hd).
  repeat split.
Qed.

(* ------------------------------------------------------------------ *)
(** *** Concrete calls *)
(* ------------------------------------------------------------------ *)

(** [Load(parent, sdf)] is the one call that gets an argument added. *)
Lemma only_default_is_load_suffix_witness :
  In Load3 methods /\
  complete (m_params Load3) [Ident "parent"; Ident "sdf"]
  = Some [Ident "parent"; Ident "sdf"; StringLit EmptyString] /\
  ([Ident "parent"; Ident "sdf"; StringLit EmptyString]
   = [Ident "parent"; Ident "sdf"] \/
   (Load3 = Load3 /\
    exists parent sdf : expr,
      [Ident "parent"; Ident "sdf"] = [parent; sdf] /\
      [Ident "parent"; Ident "sdf"; StringLit EmptyString]
      = [parent; sdf; StringLit EmptyString])).
Proof.
  assert (Hin : In Load3 methods) by (right; right; left; reflexivity).
  split; [exact Hin|]. split; [reflexivity|].
  exact (only_default_is_load_suffix
           Load3 [Ident "parent"; Ident "sdf"]
           [Ident "parent"; Ident "sdf"; StringLit EmptyString]
           Hin eq_refl).
Defined.

(** A camera plugin class that only holds a [GazeboRosCameraUtils]. *)
Lemma external_interface_witness :
  "GazeboRosCamera" <> "GazeboRosMultiCamera" /\
  visible (InOtherClass "GazeboRosCamera" false) field_entries = [] /\
  visible (InOtherClass "GazeboRosCamera" false) method_entries
  = ["GazeboRosCameraUtils"; "~GazeboRosCameraUtils"; "Load"; "Load"; "OnLoad"].
Proof.
  assert (Hn : "GazeboRosCamera" <> "GazeboRosMultiCamera") by discriminate.
  split; [exact Hn|].
  destruct (external_interface "GazeboRosCamera" Hn) as (_ & _ & Hf & Hm).
  split; [exact Hf|exact Hm].
Defined.

(** A camera plugin class that derives from [GazeboRosCameraUtils]. *)
Lemma derived_and_friend_access_witness :
  "GazeboRosCamera" <> "GazeboRosMultiCamera" /\
  hidden (InOtherClass "GazeboRosCamera" true) method_entries
  = ["Init"; "SetHFOV"; "SetUpdateRate"; "InfoConnect"; "InfoDisconnect";
     "LoadThread"].
Proof.
  assert (Hn : "GazeboRosCamera" <> "GazeboRosMultiCamera") by discriminate.
  split; [exact Hn|].
  destruct (derived_and_friend_access "GazeboRosCamera" true Hn)
    as (_ & _ & Hm & _).
  exact Hm.
Defined.

End Interface.
